(** * Shallow embedding of react_agent/tools.py (SBOM EOL reconciliation)

    The functions [search], [parse_sbom] and [check_eol_dates] of
    src/react_agent/tools.py, with Python's exceptions made explicit as an
    error monad, JSON values (what [json.loads] and [response.json()]
    produce) as an inductive type, and [datetime.strptime(_, "%Y-%m-%d")]
    written out as Python's [_strptime] matches it. *)

From Stdlib Require Import String Ascii ZArith List Bool Lia.
Import ListNotations.
Open Scope string_scope.
Open Scope Z_scope.
#[local] Set Warnings "-register-all".

(** ** Python values *)

(** A JSON value as Python holds it after decoding: [None], [bool], [int],
    [str], [list] and [dict].  A dict is written as its list of
    (key, value) pairs; [dict(pairs)] keeps the last value of a repeated
    key, which is what [py_get] looks up. *)
Inductive json : Type :=
| JNull
| JBool (b : bool)
| JNum (n : Z)
| JStr (s : string)
| JArr (l : list json)
| JObj (fields : list (string * json)).

(** The exceptions the three functions can raise. *)
Inductive exc : Type :=
| KeyError
| TypeError
| ValueError
| AttributeError
| APIStatusError (msg : string)
| OtherError.

Inductive result (A : Type) : Type :=
| Ret (a : A)
| Raise (e : exc).
Arguments Ret {A} a.
Arguments Raise {A} e.

Definition bind {A B} (m : result A) (k : A -> result B) : result B :=
  match m with
  | Ret a => k a
  | Raise e => Raise e
  end.

Notation "x <- m ;; k" := (bind m (fun x => k))
  (at level 61, m at next level, right associativity).

(** [d.get(k)]: the value of the last pair with key [k]. *)
Fixpoint py_get (k : string) (fields : list (string * json)) : option json :=
  match fields with
  | [] => None
  | (k', v) :: rest =>
      match py_get k rest with
      | Some w => Some w
      | None => if String.eqb k k' then Some v else None
      end
  end.

(** [x[k]] for a string key [k]: a dict raises [KeyError] on a missing key;
    [None], bools, ints, strings and lists raise [TypeError]. *)
Definition py_subscript (x : json) (k : string) : result json :=
  match x with
  | JObj fields =>
      match py_get k fields with
      | Some v => Ret v
      | None => Raise KeyError
      end
  | _ => Raise TypeError
  end.

(** [bool(x)]. *)
Definition py_truthy (x : json) : bool :=
  match x with
  | JNull => false
  | JBool b => b
  | JNum n => negb (n =? 0)
  | JStr s => negb (String.eqb s "")
  | JArr l => match l with [] => false | _ => true end
  | JObj f => match f with [] => false | _ => true end
  end.

(** [s.split('.')[0]]: the text before the first ['.'] (all of [s] when
    there is none). *)
Fixpoint split_dot_head (s : string) : string :=
  match s with
  | EmptyString => EmptyString
  | String c rest =>
      if Ascii.eqb c "."%char then EmptyString else String c (split_dot_head rest)
  end.

(** [needle in hay] for strings. *)
Fixpoint str_contains (needle hay : string) : bool :=
  prefix needle hay ||
  match hay with
  | EmptyString => false
  | String _ rest => str_contains needle rest
  end.

(** ** datetime *)

Record datetime : Type := mkdt {
  dt_year : Z; dt_month : Z; dt_day : Z;
  dt_us : Z  (** microseconds since midnight *)
}.

(** Rank of a datetime; for valid fields (month 1..12, day 1..31,
    0 <= us < 86400000000) the order of ranks is the order of datetimes. *)
Definition dt_rank (t : datetime) : Z :=
  ((dt_year t * 13 + dt_month t) * 32 + dt_day t) * 86400000000 + dt_us t.

(** [a < b] on datetimes. *)
Definition dt_lt (a b : datetime) : bool := dt_rank a <? dt_rank b.

(** [datetime.max]: 9999-12-31 23:59:59.999999. *)
Definition dt_max : datetime := mkdt 9999 12 31 86399999999.

Definition is_leap (y : Z) : bool :=
  ((y mod 4 =? 0) && negb (y mod 100 =? 0)) || (y mod 400 =? 0).

Definition days_in_month (y m : Z) : Z :=
  if m =? 2 then (if is_leap y then 29 else 28)
  else if (m =? 4) || (m =? 6) || (m =? 9) || (m =? 11) then 30
  else 31.

Definition digit (c : ascii) : option Z :=
  let n := Z.of_nat (nat_of_ascii c) in
  if (48 <=? n) && (n <=? 57) then Some (n - 48) else None.

Definition is_digit_in (lo hi : Z) (c : ascii) : option Z :=
  match digit c with
  | Some d => if (lo <=? d) && (d <=? hi) then Some d else None
  | None => None
  end.

(** The regex group of [%m], [1[0-2]|0[1-9]|[1-9]]: every way it matches
    a prefix of the input, in the order the regex engine tries them. *)
Definition match_month (s : list ascii) : list (Z * list ascii) :=
  let a1 := match s with
            | c1 :: c2 :: r =>
                if Ascii.eqb c1 "1"%char then
                  match is_digit_in 0 2 c2 with Some d => [(10 + d, r)] | None => [] end
                else []
            | _ => [] end in
  let a2 := match s with
            | c1 :: c2 :: r =>
                if Ascii.eqb c1 "0"%char then
                  match is_digit_in 1 9 c2 with Some d => [(d, r)] | None => [] end
                else []
            | _ => [] end in
  let a3 := match s with
            | c1 :: r => match is_digit_in 1 9 c1 with Some d => [(d, r)] | None => [] end
            | _ => [] end in
  a1 ++ a2 ++ a3.

(** The regex group of [%d], [3[01]|[12]\d|0[1-9]|[1-9]| [1-9]]. *)
Definition match_day (s : list ascii) : list (Z * list ascii) :=
  let a1 := match s with
            | c1 :: c2 :: r =>
                if Ascii.eqb c1 "3"%char then
                  match is_digit_in 0 1 c2 with Some d => [(30 + d, r)] | None => [] end
                else []
            | _ => [] end in
  let a2 := match s with
            | c1 :: c2 :: r =>
                match is_digit_in 1 2 c1, digit c2 with
                | Some d1, Some d2 => [(10 * d1 + d2, r)]
                | _, _ => [] end
            | _ => [] end in
  let a3 := match s with
            | c1 :: c2 :: r =>
                if Ascii.eqb c1 "0"%char then
                  match is_digit_in 1 9 c2 with Some d => [(d, r)] | None => [] end
                else []
            | _ => [] end in
  let a4 := match s with
            | c1 :: r => match is_digit_in 1 9 c1 with Some d => [(d, r)] | None => [] end
            | _ => [] end in
  let a5 := match s with
            | c1 :: c2 :: r =>
                if Ascii.eqb c1 " "%char then
                  match is_digit_in 1 9 c2 with Some d => [(d, r)] | None => [] end
                else []
            | _ => [] end in
  a1 ++ a2 ++ a3 ++ a4 ++ a5.

Fixpoint first_some {A B} (f : A -> option B) (l : list A) : option B :=
  match l with
  | [] => None
  | x :: r => match f x with Some y => Some y | None => first_some f r end
  end.

(** [re.match] of the compiled pattern of ["%Y-%m-%d"]
    ([(?P<Y>\d\d\d\d)-(?P<m>...)-(?P<d>...)]): year, month, day and the
    unmatched rest of the input.  The pattern is not anchored at the end,
    so the first alternative of [%d] that matches is kept. *)
Definition match_ymd (s : list ascii) : option (Z * Z * Z * list ascii) :=
  match s with
  | y1 :: y2 :: y3 :: y4 :: dash :: r =>
      match digit y1, digit y2, digit y3, digit y4 with
      | Some a, Some b, Some c, Some d =>
          if Ascii.eqb dash "-"%char then
            first_some
              (fun '(m, r1) =>
                 match r1 with
                 | dash2 :: r2 =>
                     if Ascii.eqb dash2 "-"%char then
                       match match_day r2 with
                       | (dd, r3) :: _ => Some (1000 * a + 100 * b + 10 * c + d, m, dd, r3)
                       | [] => None
                       end
                     else None
                 | [] => None
                 end)
              (match_month r)
          else None
      | _, _, _, _ => None
      end
  | _ => None
  end.

(** [datetime.strptime(s, "%Y-%m-%d")]: [None] where Python raises
    [ValueError] (no match, unconverted data remains, year 0, or a day
    past the end of the month). *)
Definition strptime_ymd (s : string) : option datetime :=
  match match_ymd (list_ascii_of_string s) with
  | Some (y, m, d, []) =>
      if (1 <=? y) && (d <=? days_in_month y m) then Some (mkdt y m d 0) else None
  | _ => None
  end.

(** ** parse_sbom *)

(** [parse_sbom(sbom)], from the outcome of [json.loads(sbom)]: [None]
    when [json.loads] raised [JSONDecodeError], [Some v] when it decoded
    [sbom] to [v].  Both [return None] paths give [Ret None]. *)
Definition parse_sbom (decoded : option json) : result (option (list json)) :=
  match decoded with
  | None => Ret None                              (* except JSONDecodeError *)
  | Some sbom_data =>
      match sbom_data with
      | JObj fields =>
          match py_get "components" fields with   (* .get("components", []) *)
          | None => Ret (Some [])
          | Some (JArr frameworks) => Ret (Some frameworks)
          | Some _ => Ret None                    (* not isinstance(_, list) *)
          end
      | _ => Raise AttributeError                 (* .get on a non-dict *)
      end
  end.

(** ** check_eol_dates *)

Section CheckEol.

(** [await fetch_eol_data(name)]: the decoded body of a 200 response, or
    [JNull] for [None] (non-200 status or [aiohttp.ClientError]). *)
Variable fetch_eol_data : json -> json.
(** The reading of [datetime.now()]. *)
Variable now : datetime.

(** [next((item for item in eol_data if item["cycle"] == major_version), None)]
    over a list [eol_data]; the generator stops at the first match. *)
Fixpoint find_cycle (major_version : string) (eol_data : list json)
  : result (option json) :=
  match eol_data with
  | [] => Ret None
  | item :: rest =>
      c <- py_subscript item "cycle" ;;
      match c with
      | JStr s => if String.eqb s major_version then Ret (Some item)
                  else find_cycle major_version rest
      | _ => find_cycle major_version rest
      end
  end.

(** The key of [max]: [datetime.strptime(v["eol"], "%Y-%m-%d") if
    isinstance(v["eol"], str) else datetime.max]. *)
Definition eol_key (v : json) : result datetime :=
  e <- py_subscript v "eol" ;;
  match e with
  | JStr s => match strptime_ymd s with
              | Some d => Ret d
              | None => Raise ValueError
              end
  | _ => Ret dt_max
  end.

(** [max] with a key: the key of every element is evaluated in order and
    a later element replaces the current one only when its key is
    strictly greater. *)
Fixpoint max_key_from (best : json) (best_key : datetime) (l : list json)
  : result json :=
  match l with
  | [] => Ret best
  | v :: rest =>
      k <- eol_key v ;;
      if dt_lt best_key k then max_key_from v k rest
      else max_key_from best best_key rest
  end.

Definition max_by_eol (l : list json) : result json :=
  match l with
  | [] => Raise ValueError                        (* max() of an empty sequence *)
  | v :: rest => k <- eol_key v ;; max_key_from v k rest
  end.

(** Iterating [eol_data] in the generator: only a list gets past the
    subscript; a truthy dict, string, number or [True] raises [TypeError]. *)
Definition find_cycle_in (major_version : string) (eol_data : json)
  : result (option json) :=
  match eol_data with
  | JArr l => find_cycle major_version l
  | _ => Raise TypeError
  end.

(** The body of the [for framework in frameworks] loop: the
    recommendation it appends to [upgrades], if any. *)
Definition check_framework (framework : json) : result (option json) :=
  name <- py_subscript framework "name" ;;
  version <- py_subscript framework "version" ;;
  match version with
  | JStr v =>
      let major_version := split_dot_head v in
      let eol_data := fetch_eol_data name in
      if py_truthy eol_data then
        version_data <- find_cycle_in major_version eol_data ;;
        match version_data with
        | Some vd =>
            if py_truthy vd then
              let eol_date_str := match vd with
                                  | JObj f => match py_get "eol" f with
                                              | Some e => e
                                              | None => JNull
                                              end
                                  | _ => JNull
                                  end in
              match eol_date_str with
              | JStr es =>
                  match strptime_ymd es with
                  | None => Raise ValueError
                  | Some eol_date =>
                      if dt_lt eol_date now then
                        latest_version <- (match eol_data with
                                           | JArr l => max_by_eol l
                                           | _ => Raise TypeError
                                           end) ;;
                        cyc <- py_subscript latest_version "cycle" ;;
                        leol <- py_subscript latest_version "eol" ;;
                        Ret (Some (JObj [("name", name);
                                         ("current_version", version);
                                         ("eol_date", JStr es);
                                         ("suggested_version", cyc);
                                         ("suggested_eol_date", leol)]))
                      else Ret None
                  end
              | _ => Ret None                     (* no valid EOL date *)
              end
            else Ret None
        | None => Ret None                        (* no data for the version *)
        end
      else Ret None                               (* failed to fetch *)
  | _ => Raise AttributeError                     (* .split on a non-str *)
  end.

Fixpoint check_all (frameworks : list json) : result (list json) :=
  match frameworks with
  | [] => Ret []
  | framework :: rest =>
      o <- check_framework framework ;;
      upgrades <- check_all rest ;;
      Ret (match o with Some r => r :: upgrades | None => upgrades end)
  end.

(** [check_eol_dates(frameworks)], [frameworks] being [None] or a list. *)
Definition check_eol_dates (frameworks : option (list json))
  : result (option (list json)) :=
  match frameworks with
  | None | Some [] => Ret None                    (* if not frameworks *)
  | Some l => upgrades <- check_all l ;; Ret (Some upgrades)
  end.

End CheckEol.

(** ** search *)

(** What one [await wrapped.ainvoke(...)] does: return a result, raise
    [APIStatusError] (with [str(e)]), or raise any other exception. *)
Inductive upstream_outcome (A : Type) : Type :=
| UOk (r : A)
| UAPIStatusError (msg : string)
| UOther.
Arguments UOk {A} r.
Arguments UAPIStatusError {A} msg.
Arguments UOther {A}.

(** What a run of [search] observed: the sleeps in order, the number of
    upstream calls, and the outcome. *)
Record search_run (A : Type) : Type := mkrun {
  sleeps : list nat;
  calls : nat;
  outcome : result (option A)
}.
Arguments mkrun {A}.
Arguments sleeps {A}.
Arguments calls {A}.
Arguments outcome {A}.

Definition max_retries : nat := 5.

(** The [for attempt in range(...)] loop from [attempt] on, with
    [remaining] iterations left; [upstream k] is what the [k]-th call
    (counted from 0) does. *)
Fixpoint search_loop {A} (upstream : nat -> upstream_outcome A)
    (attempt remaining : nat) : search_run A :=
  match remaining with
  | O => mkrun [] 0 (Ret None)                    (* max retries reached *)
  | S r =>
      match upstream attempt with
      | UOk res => mkrun [] 1 (Ret (Some res))
      | UAPIStatusError msg =>
          if str_contains "overloaded_error" msg then
            let run := search_loop upstream (S attempt) r in
            mkrun (Nat.pow 2 attempt :: sleeps run) (S (calls run)) (outcome run)
          else mkrun [] 1 (Raise (APIStatusError msg))
      | UOther => mkrun [] 1 (Raise OtherError)
      end
  end.

Definition search {A} (upstream : nat -> upstream_outcome A) : search_run A :=
  search_loop upstream 0 max_retries.

(** ** fetch_eol_data *)

(** What the request of [fetch_eol_data] for a framework meets: an
    [aiohttp.ClientError] while connecting, another exception (e.g. a
    timeout, not a [ClientError]), or a response with its status, whether
    its content type is [application/json], and its body decoded by
    [json.loads] ([None] when the body is not JSON). *)
Inductive http_outcome : Type :=
| HttpClientError
| HttpOtherError
| HttpResponse (status : Z) (json_content_type : bool) (body : option json).

(** [await fetch_eol_data(framework)], [net] giving the outcome of the GET
    of [https://endoflife.date/api/{framework}.json]; [JNull] is [None].
    [response.json()] raises [ContentTypeError], a [ClientError], on a
    non-JSON content type (caught), and [JSONDecodeError], a [ValueError],
    on a body that is not JSON (not caught). *)
Definition fetch_eol_data (net : json -> http_outcome) (framework : json) : result json :=
  match net framework with
  | HttpClientError => Ret JNull                  (* except aiohttp.ClientError *)
  | HttpOtherError => Raise OtherError
  | HttpResponse status ct body =>
      if status =? 200 then
        if ct then
          match body with
          | Some data => Ret data
          | None => Raise ValueError
          end
        else Ret JNull                            (* ContentTypeError *)
      else Ret JNull                              (* non-200 status *)
  end.

(** The loop body of [check_eol_dates] with the request made through
    [fetch_eol_data]: the name and version are read and the version split
    (raising as [check_framework] does) before the request; once the
    request returned [eol_data], the rest is [check_framework] with a feed
    that answers [eol_data].  Reading [framework] again is pure. *)
Definition check_framework_net (net : json -> http_outcome) (now : datetime)
    (framework : json) : result (option json) :=
  name <- py_subscript framework "name" ;;
  version <- py_subscript framework "version" ;;
  match version with
  | JStr _ =>
      eol_data <- fetch_eol_data net name ;;
      check_framework (fun _ => eol_data) now framework
  | _ => Raise AttributeError
  end.

Fixpoint check_all_net (net : json -> http_outcome) (now : datetime)
    (frameworks : list json) : result (list json) :=
  match frameworks with
  | [] => Ret []
  | framework :: rest =>
      o <- check_framework_net net now framework ;;
      upgrades <- check_all_net net now rest ;;
      Ret (match o with Some r => r :: upgrades | None => upgrades end)
  end.

Definition check_eol_dates_net (net : json -> http_outcome) (now : datetime)
    (frameworks : option (list json)) : result (option (list json)) :=
  match frameworks with
  | None | Some [] => Ret None
  | Some l => upgrades <- check_all_net net now l ;; Ret (Some upgrades)
  end.

(** ** load_and_check_sbom *)

(** What [open(sbom_path, 'r')] and [file.read()] do. *)
Inductive file_outcome : Type :=
| FileNotFound
| FileReadError
| FileContent (text : string).

(** [try: ... except Exception: return None]. *)
Definition catch_all {A} (m : result (option A)) : result (option A) :=
  match m with
  | Ret a => Ret a
  | Raise _ => Ret None
  end.

(** [os.getenv('SBOM_PATH', default)]. *)
Definition sbom_path (env_sbom_path : option string) (default_path : string) : string :=
  match env_sbom_path with
  | Some p => p
  | None => default_path
  end.

(** [await load_and_check_sbom()]: [env_sbom_path] is the environment
    variable [SBOM_PATH], [default_path] the [sbom.json] next to the module,
    [fs] the file system, [loads] [json.loads] ([None] on
    [JSONDecodeError]), [net] the EOL feed and [now] the clock.  The
    upgrades are computed and logged; the parsed frameworks are returned. *)
Definition load_and_check_sbom (env_sbom_path : option string) (default_path : string)
    (fs : string -> file_outcome) (loads : string -> option json)
    (net : json -> http_outcome) (now : datetime) : result (option (list json)) :=
  match fs (sbom_path env_sbom_path default_path) with
  | FileNotFound => Ret None
  | FileReadError => Ret None
  | FileContent sbom =>
      catch_all
        (frameworks <- parse_sbom (loads sbom) ;;
         match frameworks with
         | Some ((_ :: _) as l) =>                (* if frameworks *)
             _upgrades <- check_eol_dates_net net now (Some l) ;;
             Ret (Some l)
         | _ => Ret None
         end)
  end.

(** ** main *)



(** ** Auxiliary definitions for the statements *)

(** The test [isinstance(e, APIStatusError) and 'overloaded_error' in str(e)]
    of [search]. *)
Definition overloaded {A} (o : upstream_outcome A) : bool :=
  match o with
  | UAPIStatusError msg => str_contains "overloaded_error" msg
  | _ => false
  end.

(** The exception an upstream failure raises. *)
Definition upstream_exc {A} (o : upstream_outcome A) : exc :=
  match o with
  | UAPIStatusError msg => APIStatusError msg
  | _ => OtherError
  end.

Definition is_ok {A} (o : upstream_outcome A) : bool :=
  match o with UOk _ => true | _ => false end.

(** The message of the overloaded error of the Anthropic API. *)
Definition overloaded_msg : string :=
  "Error code: 529 - {'type': 'error', 'error': {'type': 'overloaded_error', 'message': 'Overloaded'}}".

(** A component record as the SBOM lists it. *)
Definition component (name version : string) : json :=
  JObj [("name", JStr name); ("version", JStr version)].

(** Release-cycle tables as the EOL feed returns them. *)
Definition release_table_c2 : json :=
  JArr [JObj [("cycle", JStr "1"); ("eol", JStr "2023-12-31")];
        JObj [("cycle", JStr "2"); ("eol", JStr "2025-12-31")]].

Definition release_table_c1 : json :=
  JArr [JObj [("cycle", JStr "1"); ("eol", JStr "not-a-date")]].

Definition release_table_c3 : json :=
  JArr [JObj [("cycle", JStr "1"); ("eol", JStr "2020-01-01")];
        JObj [("cycle", JStr "2"); ("eol", JStr "TBD")]].

(** A component is past due when its matched cycle's [eol] is a date
    string that parses to a time strictly before [now]. *)
Definition past_due (fetch : json -> json) (now : datetime) (c : json) : Prop :=
  exists name v table vd es d,
    py_subscript c "name" = Ret name /\
    py_subscript c "version" = Ret (JStr v) /\
    fetch name = JArr table /\
    find_cycle (split_dot_head v) table = Ret (Some vd) /\
    py_subscript vd "eol" = Ret (JStr es) /\
    strptime_ymd es = Some d /\
    dt_lt d now = true.

(** The inputs [check_eol_dates] handles without raising for a component
    that is not past due: a dict with a ["name"] and a string
    ["version"], whose feed answer is falsy or a list of dicts with a
    ["cycle"], and whose matched cycle's [eol], when a string, parses. *)
Definition well_formed (fetch : json -> json) (c : json) : Prop :=
  exists name v,
    py_subscript c "name" = Ret name /\
    py_subscript c "version" = Ret (JStr v) /\
    (py_truthy (fetch name) = false \/
     exists table,
       fetch name = JArr table /\
       Forall (fun item => exists cyc, py_subscript item "cycle" = Ret cyc) table /\
       (forall vd f es,
          find_cycle (split_dot_head v) table = Ret (Some vd) ->
          vd = JObj f -> py_get "eol" f = Some (JStr es) ->
          strptime_ymd es <> None)).

(** An answer of the feed for which [fetch_eol_data] returns [None]: an
    [aiohttp.ClientError], a status other than 200, or a 200 response whose
    content type is not JSON. *)
Definition feed_unavailable (o : http_outcome) : bool :=
  match o with
  | HttpClientError => true
  | HttpOtherError => false
  | HttpResponse status ct _ => negb (status =? 200) || negb ct
  end.

(** What a recommendation emitted for component [c] is made of: the
    component's name and version, the [eol] string of the cycle matched by
    its major version, which parses to a date before [now], and the
    [cycle] and [eol] of an entry [latest] of the same table; when that
    [eol] is a date string, it is no earlier than the matched one. *)
Definition recommendation_for (fetch : json -> json) (now : datetime) (c r : json) : Prop :=
  exists name v table vd es d latest cyc seol,
    py_subscript c "name" = Ret name /\
    py_subscript c "version" = Ret (JStr v) /\
    fetch name = JArr table /\
    find_cycle (split_dot_head v) table = Ret (Some vd) /\
    py_subscript vd "eol" = Ret (JStr es) /\
    strptime_ymd es = Some d /\
    dt_lt d now = true /\
    In latest table /\
    py_subscript latest "cycle" = Ret cyc /\
    py_subscript latest "eol" = Ret seol /\
    r = JObj [("name", name); ("current_version", JStr v); ("eol_date", JStr es);
              ("suggested_version", cyc); ("suggested_eol_date", seol)] /\
    (forall s', seol = JStr s' ->
       exists d', strptime_ymd s' = Some d' /\ dt_lt d' d = false).

(** A table whose two first entries tie on the latest EOL date. *)
Definition release_table_tie : list json :=
  [JObj [("cycle", JStr "4"); ("eol", JStr "2026-04-30")];
   JObj [("cycle", JStr "5"); ("eol", JStr "2026-04-30")];
   JObj [("cycle", JStr "3"); ("eol", JStr "2024-10-31")]].

(** ** Lemmas about search *)

Lemma search_loop_calls_le {A} (up : nat -> upstream_outcome A) :
  forall n attempt, (calls (search_loop up attempt n) <= n)%nat.
Proof.
  induction n as [|n IH]; intros attempt; simpl; [lia|].
  destruct (up attempt) as [r|msg|]; simpl; try lia.
  destruct (str_contains "overloaded_error" msg); simpl; [|lia].
  specialize (IH (S attempt)); lia.
Qed.

Lemma search_loop_overloaded_step {A} (up : nat -> upstream_outcome A) attempt n :
  overloaded (up attempt) = true ->
  search_loop up attempt (S n) =
  let run := search_loop up (S attempt) n in
  mkrun (Nat.pow 2 attempt :: sleeps run) (S (calls run)) (outcome run).
Proof.
  intros H; simpl. unfold overloaded in H.
  destruct (up attempt); try discriminate. now rewrite H.
Qed.

(** ** Claims about search *)

(** C5: when the first four calls raise an overloaded [APIStatusError] and
    the fifth returns [r], [search] returns [r] after sleeping 1, 2, 4 and 8
    seconds, in that order, with five calls; and no run of [search] makes
    more than five calls. *)
Theorem c5_search_backoff_then_success {A} (up : nat -> upstream_outcome A) (r : A)
  (Hov : forall k, (k < 4)%nat -> overloaded (up k) = true)
  (Hok : up 4%nat = UOk r) :
  search up = mkrun [1; 2; 4; 8]%nat 5%nat (Ret (Some r)) /\
  (forall up' : nat -> upstream_outcome A, (calls (search up') <= 5)%nat).
Proof.
  split.
  - unfold search, max_retries.
    rewrite (search_loop_overloaded_step up 0 4) by (apply Hov; lia).
    rewrite (search_loop_overloaded_step up 1 3) by (apply Hov; lia).
    rewrite (search_loop_overloaded_step up 2 2) by (apply Hov; lia).
    rewrite (search_loop_overloaded_step up 3 1) by (apply Hov; lia).
    simpl. rewrite Hok. reflexivity.
  - intros up'. apply search_loop_calls_le.
Qed.

Lemma c5_search_backoff_then_success_witness :
  let up := fun k : nat => if Nat.ltb k 4 then UAPIStatusError overloaded_msg else UOk 7%Z in
  search up = mkrun [1; 2; 4; 8]%nat 5%nat (Ret (Some 7%Z)).
Proof.
  intros up.
  apply (c5_search_backoff_then_success up 7%Z).
  - intros k Hk. destruct k as [|[|[|[|k]]]]; [vm_compute; reflexivity ..|lia].
  - reflexivity.
Defined.

(** C6: when the first call raises an error that is not an overloaded
    [APIStatusError], [search] raises that error at once: no sleep, one call. *)
Theorem c6_search_other_error_reraised {A} (up : nat -> upstream_outcome A)
  (Hfail : is_ok (up 0%nat) = false)
  (Hnot : overloaded (up 0%nat) = false) :
  search up = mkrun [] 1%nat (Raise (upstream_exc (up 0%nat))).
Proof.
  unfold search, max_retries; simpl.
  destruct (up 0%nat) as [r|msg|]; simpl in *; try discriminate; [|reflexivity].
  rewrite Hnot. reflexivity.
Qed.

Lemma c6_search_other_error_reraised_witness :
  search (fun _ : nat => @UAPIStatusError Z "Error code: 401 - authentication_error")
  = mkrun [] 1%nat (Raise (APIStatusError "Error code: 401 - authentication_error")).
Proof.
  apply (c6_search_other_error_reraised
           (fun _ : nat => @UAPIStatusError Z "Error code: 401 - authentication_error"));
  vm_compute; reflexivity.
Defined.

(** C10: when all five calls raise an overloaded [APIStatusError], [search]
    sleeps 1, 2, 4, 8 and 16 seconds (31 in all; the last sleep is followed
    by no call) and returns [None] without raising. *)
Theorem c10_search_exhausted_returns_none {A} (up : nat -> upstream_outcome A)
  (Hov : forall k, (k < 5)%nat -> overloaded (up k) = true) :
  search up = mkrun [1; 2; 4; 8; 16]%nat 5%nat (Ret None) /\
  list_sum (sleeps (search up)) = 31%nat.
Proof.
  assert (E : search up = mkrun [1; 2; 4; 8; 16]%nat 5%nat (Ret None)).
  { unfold search, max_retries.
    rewrite (search_loop_overloaded_step up 0 4) by (apply Hov; lia).
    rewrite (search_loop_overloaded_step up 1 3) by (apply Hov; lia).
    rewrite (search_loop_overloaded_step up 2 2) by (apply Hov; lia).
    rewrite (search_loop_overloaded_step up 3 1) by (apply Hov; lia).
    rewrite (search_loop_overloaded_step up 4 0) by (apply Hov; lia).
    reflexivity. }
  split; [exact E|]. rewrite E. reflexivity.
Qed.

Lemma c10_search_exhausted_returns_none_witness :
  search (fun _ : nat => @UAPIStatusError Z overloaded_msg)
  = mkrun [1; 2; 4; 8; 16]%nat 5%nat (Ret None).
Proof.
  apply (c10_search_exhausted_returns_none (fun _ : nat => @UAPIStatusError Z overloaded_msg)).
  intros k _. vm_compute. reflexivity.
Defined.

(** ** Claims about parse_sbom *)

(** C4 (counterexample): the text [{"components": 1}] decodes to a JSON
    object whose [components] is not a list; [parse_sbom] returns [None]
    for it, not an empty list, and that is the very value it returns for
    text that is not JSON. *)
Lemma c4_non_list_components_counterexample :
  parse_sbom (Some (JObj [("components", JNum 1)])) <> Ret (Some []) /\
  parse_sbom (Some (JObj [("components", JNum 1)])) = parse_sbom None.
Proof. split; [discriminate | reflexivity]. Qed.

(** C4 (amended): on text that is not JSON [parse_sbom] raises nothing and
    returns [None]; on a JSON object it returns [[]] when [components] is
    absent, the list when [components] is a list, and [None] when
    [components] is present but not a list. *)
Theorem c4_parse_sbom_outcomes :
  parse_sbom None = Ret None /\
  (forall fields, py_get "components" fields = None ->
     parse_sbom (Some (JObj fields)) = Ret (Some [])) /\
  (forall fields l, py_get "components" fields = Some (JArr l) ->
     parse_sbom (Some (JObj fields)) = Ret (Some l)) /\
  (forall fields v, py_get "components" fields = Some v ->
     (forall l, v <> JArr l) ->
     parse_sbom (Some (JObj fields)) = Ret None).
Proof.
  split; [reflexivity|]. split; [|split].
  - intros fields H. simpl. now rewrite H.
  - intros fields l H. simpl. now rewrite H.
  - intros fields v H Hnl. simpl. rewrite H.
    destruct v; try reflexivity. exfalso. eapply Hnl. reflexivity.
Qed.

Lemma c4_parse_sbom_outcomes_witness :
  parse_sbom (Some (JObj [("bomFormat", JStr "CycloneDX")])) = Ret (Some []) /\
  parse_sbom (Some (JObj [("components", JStr "none")])) = Ret None.
Proof.
  destruct c4_parse_sbom_outcomes as (_ & Habs & _ & Hnl).
  split.
  - apply Habs. reflexivity.
  - apply (Hnl _ (JStr "none")); [reflexivity | discriminate].
Defined.

(** C9: for a JSON object whose [components] is a list, [parse_sbom]
    returns that list as it is, whatever its elements. *)
Theorem c9_parse_sbom_verbatim (fields : list (string * json)) (l : list json)
  (H : py_get "components" fields = Some (JArr l)) :
  parse_sbom (Some (JObj fields)) = Ret (Some l).
Proof. simpl. now rewrite H. Qed.

Lemma c9_parse_sbom_verbatim_witness :
  parse_sbom (Some (JObj [("components", JArr [JNum 3; JObj [("name", JNum 0)]])]))
  = Ret (Some [JNum 3; JObj [("name", JNum 0)]]).
Proof. apply c9_parse_sbom_verbatim. reflexivity. Defined.

(** ** Claims about check_eol_dates *)

(** C2: a component at version 1.0.0 whose table is [release_table_c2],
    checked at any time after 2023-12-31 00:00, gets exactly the
    recommendation to move to cycle 2 (EOL 2025-12-31). *)
Theorem c2_example_recommendation (fetch : json -> json) (now : datetime) (name : string)
  (Hfetch : fetch (JStr name) = release_table_c2)
  (Hnow : dt_lt (mkdt 2023 12 31 0) now = true) :
  check_eol_dates fetch now (Some [component name "1.0.0"]) =
  Ret (Some [JObj [("name", JStr name); ("current_version", JStr "1.0.0");
                   ("eol_date", JStr "2023-12-31"); ("suggested_version", JStr "2");
                   ("suggested_eol_date", JStr "2025-12-31")]]).
Proof.
  unfold check_eol_dates, check_all, check_framework, component.
  cbn [py_subscript py_get bind String.eqb Ascii.eqb Bool.eqb andb].
  rewrite Hfetch.
  assert (Hp : strptime_ymd "2023-12-31" = Some (mkdt 2023 12 31 0))
    by reflexivity.
  cbn -[strptime_ymd dt_lt]. rewrite Hp, Hnow.
  reflexivity.
Qed.

Lemma c2_example_recommendation_witness :
  check_eol_dates (fun _ => release_table_c2) (mkdt 2026 10 18 0)
    (Some [component "django" "1.0.0"]) =
  Ret (Some [JObj [("name", JStr "django"); ("current_version", JStr "1.0.0");
                   ("eol_date", JStr "2023-12-31"); ("suggested_version", JStr "2");
                   ("suggested_eol_date", JStr "2025-12-31")]]).
Proof. apply c2_example_recommendation; reflexivity. Defined.

(** C1 (failing input): the matched cycle's [eol] is the string
    "not-a-date"; [datetime.strptime] raises [ValueError], which nothing
    catches, so [check_eol_dates] raises instead of skipping the component
    and never reaches the next one. *)
Theorem c1_unparseable_eol_raises (fetch : json -> json) (now : datetime)
  (Hfetch : fetch (JStr "django") = release_table_c1) :
  check_eol_dates fetch now
    (Some [component "django" "1.0"; component "flask" "2.0"]) = Raise ValueError.
Proof.
  unfold check_eol_dates, check_all, check_framework, component.
  cbn [py_subscript py_get bind String.eqb Ascii.eqb Bool.eqb andb].
  rewrite Hfetch. reflexivity.
Qed.

Lemma c1_unparseable_eol_raises_witness :
  check_eol_dates (fun _ => release_table_c1) (mkdt 2026 10 18 0)
    (Some [component "django" "1.0"; component "flask" "2.0"]) = Raise ValueError.
Proof. apply c1_unparseable_eol_raises. reflexivity. Defined.

(** C3 (failing input): cycle 1 is past its EOL 2020-01-01 and cycle 2 has
    the unparseable [eol] "TBD".  The key of [max] calls
    [datetime.strptime] on "TBD", which raises [ValueError]: no entry is
    suggested and [check_eol_dates] raises. *)
Theorem c3_unparseable_eol_in_max_raises (fetch : json -> json) (now : datetime)
  (Hfetch : fetch (JStr "django") = release_table_c3)
  (Hnow : dt_lt (mkdt 2020 1 1 0) now = true) :
  check_eol_dates fetch now (Some [component "django" "1.0"]) = Raise ValueError.
Proof.
  unfold check_eol_dates, check_all, check_framework, component.
  cbn [py_subscript py_get bind String.eqb Ascii.eqb Bool.eqb andb].
  rewrite Hfetch.
  assert (Hp : strptime_ymd "2020-01-01" = Some (mkdt 2020 1 1 0))
    by reflexivity.
  cbn -[strptime_ymd dt_lt]. rewrite Hp, Hnow.
  reflexivity.
Qed.

Lemma c3_unparseable_eol_in_max_raises_witness :
  check_eol_dates (fun _ => release_table_c3) (mkdt 2026 10 18 0)
    (Some [component "django" "1.0"]) = Raise ValueError.
Proof. apply c3_unparseable_eol_in_max_raises; reflexivity. Defined.

(** ** Lemmas about check_eol_dates *)

Lemma find_cycle_total (major_version : string) (table : list json) :
  Forall (fun item => exists cyc, py_subscript item "cycle" = Ret cyc) table ->
  exists o, find_cycle major_version table = Ret o.
Proof.
  induction 1 as [|item rest [cyc Hc] _ IH]; [eexists; reflexivity|].
  simpl. rewrite Hc. cbn [bind].
  destruct cyc; try exact IH.
  destruct (String.eqb s major_version); [eexists; reflexivity | exact IH].
Qed.

Lemma check_framework_not_past_due (fetch : json -> json) (now : datetime) (c : json) :
  well_formed fetch c -> ~ past_due fetch now c ->
  check_framework fetch now c = Ret None.
Proof.
  intros (name & v & Hn & Hv & Hf) Hnp.
  unfold check_framework. rewrite Hn. cbn [bind]. rewrite Hv. cbn [bind].
  destruct Hf as [Hfalse | (table & Ht & Hall & Hparse)].
  - rewrite Hfalse. reflexivity.
  - rewrite Ht.
    destruct (find_cycle_total (split_dot_head v) table Hall) as [o Ho].
    destruct (py_truthy (JArr table)); [|reflexivity].
    cbn [find_cycle_in]. rewrite Ho. cbn [bind].
    destruct o as [vd|]; [|reflexivity].
    destruct (py_truthy vd); [|reflexivity].
    destruct vd as [| | | | |f]; try reflexivity.
    destruct (py_get "eol" f) as [e|] eqn:He; [|reflexivity].
    destruct e as [| | |es| |]; try reflexivity.
    destruct (strptime_ymd es) as [d|] eqn:Hs.
    + destruct (dt_lt d now) eqn:Hlt; [|reflexivity].
      exfalso. apply Hnp.
      exists name, v, table, (JObj f), es, d.
      repeat split; auto. simpl. now rewrite He.
    + exfalso. eapply Hparse; eauto.
Qed.

Lemma check_all_none (fetch : json -> json) (now : datetime) (l : list json) :
  Forall (fun c => check_framework fetch now c = Ret None) l ->
  check_all fetch now l = Ret [].
Proof.
  induction 1 as [|c rest Hc _ IH]; [reflexivity|].
  simpl. rewrite Hc. cbn [bind]. rewrite IH. reflexivity.
Qed.

Lemma check_all_app_raise (fetch : json -> json) (now : datetime)
    (pre rest : list json) (x : json) (e : exc) :
  Forall (fun c => exists o, check_framework fetch now c = Ret o) pre ->
  check_framework fetch now x = Raise e ->
  check_all fetch now (pre ++ x :: rest) = Raise e.
Proof.
  intros Hpre Hx. induction Hpre as [|c pre' [o Hc] _ IH].
  - simpl. rewrite Hx. reflexivity.
  - simpl. rewrite Hc. cbn [bind]. rewrite IH. reflexivity.
Qed.

(** C7 (counterexample): the one component is a dict without ["name"]; it
    is not past due, yet [check_eol_dates] raises [KeyError] instead of
    returning [[]]. *)
Lemma c7_missing_name_counterexample :
  ~ past_due (fun _ => JNull) (mkdt 2026 10 18 0) (JObj [("version", JStr "1.0")]) /\
  check_eol_dates (fun _ => JNull) (mkdt 2026 10 18 0)
    (Some [JObj [("version", JStr "1.0")]]) = Raise KeyError.
Proof.
  split; [|reflexivity].
  intros (name & v & table & vd & es & d & Hn & _). discriminate Hn.
Qed.

(** C7 (amended): [check_eol_dates] returns [None] exactly for [None] and
    for the empty list; on a non-empty list of well-formed components none
    of which is past due it returns the empty list. *)
Theorem c7_check_eol_dates_empty_result (fetch : json -> json) (now : datetime)
  (l : list json)
  (Hne : l <> [])
  (Hwf : Forall (well_formed fetch) l)
  (Hnp : Forall (fun c => ~ past_due fetch now c) l) :
  check_eol_dates fetch now (Some l) = Ret (Some []) /\
  check_eol_dates fetch now None = Ret None /\
  check_eol_dates fetch now (Some []) = Ret None /\
  (forall l', l' <> [] -> check_eol_dates fetch now (Some l') <> Ret None).
Proof.
  split; [|split; [reflexivity | split; [reflexivity|]]].
  - destruct l as [|c l]; [contradiction|].
    unfold check_eol_dates. rewrite check_all_none; [reflexivity|].
    clear Hne. induction Hwf as [|c' l'' Hc _ IH]; [constructor|].
    inversion Hnp as [|? ? Hn1 Hn2]; subst.
    constructor; [now apply check_framework_not_past_due | now apply IH].
  - intros [|c l'] Hne'; [contradiction|].
    unfold check_eol_dates. destruct (check_all fetch now (c :: l')); discriminate.
Qed.

Lemma c7_check_eol_dates_empty_result_witness :
  check_eol_dates (fun _ => release_table_c2) (mkdt 2024 6 1 0)
    (Some [component "django" "2.0"]) = Ret (Some []).
Proof.
  apply (c7_check_eol_dates_empty_result (fun _ => release_table_c2) (mkdt 2024 6 1 0)
           [component "django" "2.0"]).
  - discriminate.
  - constructor; [|constructor].
    exists (JStr "django"), "2.0". split; [reflexivity|]. split; [reflexivity|].
    right. eexists. split; [reflexivity|]. split.
    + repeat constructor; eexists; reflexivity.
    + intros vd f es Hf Hvd He. vm_compute in Hf. injection Hf as <-.
      injection Hvd as <-. vm_compute in He. injection He as <-. vm_compute. discriminate.
  - constructor; [|constructor].
    intros (name & v & table & vd & es & d & Hn & Hv & Ht & Hf & He & Hs & Hlt).
    vm_compute in Hn, Hv. injection Hn as <-. injection Hv as <-.
    injection Ht as <-. vm_compute in Hf. injection Hf as <-.
    vm_compute in He. injection He as <-. vm_compute in Hs. injection Hs as <-.
    vm_compute in Hlt. discriminate.
Defined.

(** C8 (counterexample): the list holds a dict without ["name"], but an
    earlier element is a string; its subscript raises [TypeError] first, so
    the call raises [TypeError], not [KeyError]. *)
Lemma c8_earlier_error_counterexample :
  py_get "name" [("version", JStr "1.0")] = None /\
  check_eol_dates (fun _ => JNull) (mkdt 2026 10 18 0)
    (Some [JStr "django"; JObj [("version", JStr "1.0")]]) = Raise TypeError.
Proof. split; reflexivity. Qed.

Lemma check_framework_missing_key (fetch : json -> json) (now : datetime)
    (fields : list (string * json)) :
  py_get "name" fields = None \/ py_get "version" fields = None ->
  check_framework fetch now (JObj fields) = Raise KeyError.
Proof.
  intros Hmiss. unfold check_framework, py_subscript.
  destruct Hmiss as [H | H]; [now rewrite H|].
  destruct (py_get "name" fields); cbn [bind]; [now rewrite H | reflexivity].
Qed.

Lemma check_all_app_raises_some (fetch : json -> json) (now : datetime)
    (pre rest : list json) (x : json) (e0 : exc) :
  check_framework fetch now x = Raise e0 ->
  exists e, check_all fetch now (pre ++ x :: rest) = Raise e.
Proof.
  intros Hx. induction pre as [|c pre IH].
  - exists e0. simpl. now rewrite Hx.
  - simpl. destruct (check_framework fetch now c) as [o|e]; cbn [bind];
      [|now exists e].
    destruct IH as [e He]. rewrite He. now exists e.
Qed.

Lemma check_eol_dates_raise (fetch : json -> json) (now : datetime)
    (l : list json) (e : exc) :
  check_all fetch now l = Raise e -> check_eol_dates fetch now (Some l) = Raise e.
Proof.
  intros H. destruct l as [|c l]; [discriminate H|].
  unfold check_eol_dates. now rewrite H.
Qed.

(** C8 (amended): a list holding a component dict without ["name"], or
    without ["version"], never makes [check_eol_dates] return: the whole
    call aborts, the component is not skipped.  It raises [KeyError]
    when every component before it was processed without raising, and
    otherwise the error of the first earlier component that raised. *)
Theorem c8_missing_key_raises_keyerror (fetch : json -> json) (now : datetime)
  (pre rest : list json) (fields : list (string * json))
  (Hmiss : py_get "name" fields = None \/ py_get "version" fields = None) :
  (exists e,
     check_eol_dates fetch now (Some (pre ++ JObj fields :: rest)%list) = Raise e) /\
  (Forall (fun c => exists o, check_framework fetch now c = Ret o) pre ->
   check_eol_dates fetch now (Some (pre ++ JObj fields :: rest)%list) = Raise KeyError) /\
  (forall pre1 c pre2 e,
     pre = (pre1 ++ c :: pre2)%list ->
     Forall (fun c' => exists o, check_framework fetch now c' = Ret o) pre1 ->
     check_framework fetch now c = Raise e ->
     check_eol_dates fetch now (Some (pre ++ JObj fields :: rest)%list) = Raise e).
Proof.
  pose proof (check_framework_missing_key fetch now fields Hmiss) as Hx.
  split; [|split].
  - destruct (check_all_app_raises_some fetch now pre rest (JObj fields) KeyError Hx)
      as [e He].
    exists e. now apply check_eol_dates_raise.
  - intros Hpre. apply check_eol_dates_raise.
    exact (check_all_app_raise fetch now pre rest (JObj fields) KeyError Hpre Hx).
  - intros pre1 c pre2 e -> Hpre1 Hc. apply check_eol_dates_raise.
    rewrite <- app_assoc. cbn [app].
    exact (check_all_app_raise fetch now pre1 (pre2 ++ JObj fields :: rest) c e Hpre1 Hc).
Qed.

Lemma c8_missing_key_raises_keyerror_witness :
  check_eol_dates (fun _ => JNull) (mkdt 2026 10 18 0)
    (Some ([component "django" "2.0"] ++ [JObj [("version", JStr "1.0")]])%list) = Raise KeyError.
Proof.
  apply (proj1 (proj2 (c8_missing_key_raises_keyerror (fun _ => JNull) (mkdt 2026 10 18 0)
           [component "django" "2.0"] [] [("version", JStr "1.0")] (or_introl eq_refl)))).
  constructor; [|constructor]. eexists. reflexivity.
Defined.

(** ** Further properties of search *)

Lemma search_loop_schedule {A} (up : nat -> upstream_outcome A) :
  forall n attempt r, (n < r)%nat ->
  (forall k, (k < n)%nat -> overloaded (up (attempt + k)%nat) = true) ->
  overloaded (up (attempt + n)%nat) = false ->
  search_loop up attempt r =
  mkrun (map (Nat.pow 2) (seq attempt n)) (S n)
        (match up (attempt + n)%nat with
         | UOk res => Ret (Some res)
         | o => Raise (upstream_exc o)
         end).
Proof.
  induction n as [|n IH]; intros attempt r Hr Hov Hstop.
  - destruct r as [|r]; [lia|]. rewrite Nat.add_0_r in Hstop |- *. simpl.
    destruct (up attempt) as [res|msg|]; simpl in *; try reflexivity.
    now rewrite Hstop.
  - destruct r as [|r]; [lia|].
    rewrite search_loop_overloaded_step
      by (specialize (Hov 0%nat); rewrite Nat.add_0_r in Hov; apply Hov; lia).
    rewrite (IH (S attempt) r).
    + simpl. rewrite <- Nat.add_succ_comm. reflexivity.
    + lia.
    + intros k Hk. rewrite Nat.add_succ_comm. apply Hov. lia.
    + rewrite Nat.add_succ_comm. exact Hstop.
Qed.

(** [search] backs off [2^0, ..., 2^(n-1)] seconds over the first [n]
    overloaded errors; the next call, when one of the five, ends the run:
    its result is returned or its error raised. *)
Theorem search_backoff_schedule {A} (up : nat -> upstream_outcome A) (n : nat)
  (Hn : (n < 5)%nat)
  (Hov : forall k, (k < n)%nat -> overloaded (up k) = true)
  (Hstop : overloaded (up n) = false) :
  search up =
  mkrun (map (Nat.pow 2) (seq 0 n)) (S n)
        (match up n with
         | UOk res => Ret (Some res)
         | o => Raise (upstream_exc o)
         end).
Proof. apply (search_loop_schedule up n 0 5); assumption. Qed.

Lemma search_backoff_schedule_witness :
  search (fun k : nat => if Nat.ltb k 2 then UAPIStatusError overloaded_msg
                         else @UAPIStatusError Z "Error code: 400 - invalid_request_error")
  = mkrun [1; 2]%nat 3%nat (Raise (APIStatusError "Error code: 400 - invalid_request_error")).
Proof.
  rewrite (search_backoff_schedule _ 2).
  - reflexivity.
  - lia.
  - intros k Hk. destruct k as [|[|k]]; [vm_compute; reflexivity .. | lia].
  - vm_compute. reflexivity.
Defined.

Lemma search_loop_sleeps_prefix {A} (up : nat -> upstream_outcome A) :
  forall r attempt, exists n, (n <= r)%nat /\
    sleeps (search_loop up attempt r) = map (Nat.pow 2) (seq attempt n).
Proof.
  induction r as [|r IH]; intros attempt; simpl.
  - exists 0%nat. split; [lia | reflexivity].
  - destruct (up attempt) as [res|msg|]; simpl;
      try (exists 0%nat; split; [lia | reflexivity]).
    destruct (str_contains "overloaded_error" msg); simpl;
      [|exists 0%nat; split; [lia | reflexivity]].
    destruct (IH (S attempt)) as [n [Hn Hs]].
    exists (S n). split; [lia|]. simpl. now rewrite Hs.
Qed.

Lemma search_loop_none_all_overloaded {A} (up : nat -> upstream_outcome A) :
  forall r attempt, outcome (search_loop up attempt r) = Ret None ->
  forall k, (k < r)%nat -> overloaded (up (attempt + k)%nat) = true.
Proof.
  induction r as [|r IH]; intros attempt Hout k Hk; [lia|].
  simpl in Hout.
  destruct (up attempt) as [res|msg|] eqn:Hup; simpl in Hout; try discriminate.
  destruct (str_contains "overloaded_error" msg) eqn:Hc; simpl in Hout; [|discriminate].
  destruct k as [|k].
  - rewrite Nat.add_0_r, Hup. exact Hc.
  - rewrite <- Nat.add_succ_comm. apply IH; [exact Hout | lia].
Qed.

(** Every run of [search] sleeps at most five times and at most 31 seconds
    in all, and it returns [None] only when all five calls raised an
    overloaded error. *)
Theorem search_bounded_and_none_only_when_exhausted {A} (up : nat -> upstream_outcome A) :
  (length (sleeps (search up)) <= 5)%nat /\
  (list_sum (sleeps (search up)) <= 31)%nat /\
  (outcome (search up) = Ret None -> forall k, (k < 5)%nat -> overloaded (up k) = true).
Proof.
  destruct (search_loop_sleeps_prefix up 5 0) as [n [Hn Hs]].
  unfold search, max_retries. rewrite Hs, length_map, length_seq.
  split; [exact Hn|]. split.
  - destruct n as [|[|[|[|[|[|n]]]]]]; simpl; lia.
  - intros Hout k Hk. exact (search_loop_none_all_overloaded up 5 0 Hout k Hk).
Qed.

(** ** Failures of the EOL feed *)

Lemma check_framework_net_unavailable (net : json -> http_outcome) (now : datetime)
    (c name : json) (v : string) :
  py_subscript c "name" = Ret name ->
  py_subscript c "version" = Ret (JStr v) ->
  feed_unavailable (net name) = true ->
  check_framework_net net now c = Ret None.
Proof.
  intros Hn Hv Hu. unfold check_framework_net.
  rewrite Hn. cbn [bind]. rewrite Hv. cbn [bind].
  assert (Hf : fetch_eol_data net name = Ret JNull).
  { unfold fetch_eol_data.
    destruct (net name) as [| |status ct body]; [reflexivity | discriminate Hu|].
    cbn [feed_unavailable] in Hu.
    destruct (status =? 200); [|reflexivity].
    destruct ct; [discriminate Hu | reflexivity]. }
  rewrite Hf. cbn [bind]. unfold check_framework.
  rewrite Hn. cbn [bind]. rewrite Hv. reflexivity.
Qed.

(** When the feed cannot be reached for any component (a connection
    error, a status other than 200, or a response not typed as JSON),
    [check_eol_dates] returns the empty list: the outage is reported as
    "no upgrades", the same value as for components that are all up to
    date, and never as an error or as [None]. *)
Theorem check_eol_dates_net_feed_unavailable (net : json -> http_outcome)
  (now : datetime) (l : list json)
  (Hne : l <> [])
  (Hl : Forall (fun c => exists name v,
           py_subscript c "name" = Ret name /\
           py_subscript c "version" = Ret (JStr v) /\
           feed_unavailable (net name) = true) l) :
  check_eol_dates_net net now (Some l) = Ret (Some []).
Proof.
  assert (Hall : check_all_net net now l = Ret []).
  { clear Hne. induction Hl as [|c l' (name & v & Hn & Hv & Hu) _ IH]; [reflexivity|].
    simpl. rewrite (check_framework_net_unavailable net now c name v Hn Hv Hu).
    cbn [bind]. rewrite IH. reflexivity. }
  destruct l as [|c l]; [contradiction|].
  unfold check_eol_dates_net. now rewrite Hall.
Qed.

Lemma check_eol_dates_net_feed_unavailable_witness :
  check_eol_dates_net
    (fun n => match n with
              | JStr s => if String.eqb s "django" then HttpClientError
                          else HttpResponse 404 true None
              | _ => HttpResponse 404 true None
              end)
    (mkdt 2026 10 18 0) (Some [component "django" "1.0"; component "flask" "2.3.1"])
  = Ret (Some []).
Proof.
  apply check_eol_dates_net_feed_unavailable.
  - discriminate.
  - repeat constructor; do 2 eexists; repeat split; vm_compute; reflexivity.
Defined.





(** ** The major-version token *)

(** The major version is the text before the first ['.']: for a string
    [a] without a dot, [split('.')[0]] of [a] and of [a + "." + b] is [a]. *)
Theorem split_dot_head_major (a : string)
  (Ha : str_contains "." a = false) :
  split_dot_head a = a /\ forall b, split_dot_head (a ++ String "."%char b) = a.
Proof.
  induction a as [|c a IH]; simpl in *.
  - split; [reflexivity|]. intros b. reflexivity.
  - apply orb_false_iff in Ha as [Hp Hrest].
    assert (Hc : Ascii.eqb c "."%char = false).
    { destruct (Ascii.eqb_spec c "."%char) as [->|]; [simpl in Hp; destruct a; discriminate | reflexivity]. }
    rewrite Hc. destruct (IH Hrest) as [IH1 IH2].
    split; [now rewrite IH1|]. intros b. now rewrite IH2.
Qed.

Lemma split_dot_head_major_witness : split_dot_head ("3" ++ String "."%char "11.2") = "3".
Proof. apply (split_dot_head_major "3"). reflexivity. Defined.

(** ** Further properties of check_eol_dates *)

Lemma bind_ret {A} (m : result A) : (x <- m ;; Ret x) = m.
Proof. now destruct m. Qed.

(** The components are checked in order: checking [l1 ++ l2] checks [l1]
    (an error there is raised before [l2] is looked at), then [l2], and
    the recommendations of [l1] come before those of [l2]. *)
Theorem check_all_app (fetch : json -> json) (now : datetime) (l1 l2 : list json) :
  check_all fetch now (l1 ++ l2)%list =
  (u1 <- check_all fetch now l1 ;; u2 <- check_all fetch now l2 ;; Ret (u1 ++ u2)%list).
Proof.
  induction l1 as [|c l1 IH]; simpl.
  - now rewrite bind_ret.
  - destruct (check_framework fetch now c) as [o|e]; cbn [bind]; [|reflexivity].
    rewrite IH.
    destruct (check_all fetch now l1) as [u1|e]; cbn [bind]; [|reflexivity].
    destruct (check_all fetch now l2) as [u2|e]; cbn [bind]; [|reflexivity].
    destruct o; reflexivity.
Qed.

Lemma max_key_from_char : forall l best bk res,
  max_key_from best bk l = Ret res ->
  (res = best /\
   Forall (fun v => exists k, eol_key v = Ret k /\ dt_rank k <= dt_rank bk) l) \/
  (exists pre post rk,
     l = (pre ++ res :: post)%list /\ eol_key res = Ret rk /\ dt_rank bk < dt_rank rk /\
     Forall (fun v => exists k, eol_key v = Ret k /\ dt_rank k < dt_rank rk) pre /\
     Forall (fun v => exists k, eol_key v = Ret k /\ dt_rank k <= dt_rank rk) post).
Proof.
  induction l as [|v l IH]; intros best bk res H; simpl in H.
  - injection H as <-. left. split; [reflexivity | constructor].
  - destruct (eol_key v) as [k|e] eqn:Hk; cbn [bind] in H; [|discriminate].
    unfold dt_lt in H.
    destruct (Z.ltb_spec (dt_rank bk) (dt_rank k)) as [Hlt|Hge].
    + destruct (IH _ _ _ H) as [[-> Hall] | (pre & post & rk & -> & Hr & Hlt' & Hpre & Hpost)].
      * right. exists [], l, k. repeat split; auto.
      * right. exists (v :: pre), post, rk. split; [reflexivity|].
        split; [exact Hr|]. split; [lia|]. split; [|exact Hpost].
        constructor; [exists k; split; [exact Hk | lia] | exact Hpre].
    + destruct (IH _ _ _ H) as [[-> Hall] | (pre & post & rk & -> & Hr & Hlt' & Hpre & Hpost)].
      * left. split; [reflexivity|]. constructor; [|exact Hall].
        exists k. split; [exact Hk | lia].
      * right. exists (v :: pre), post, rk. split; [reflexivity|].
        split; [exact Hr|]. split; [exact Hlt'|]. split; [|exact Hpost].
        constructor; [exists k; split; [exact Hk | lia] | exact Hpre].
Qed.

(** The entry [max] picks for the suggestion: every entry before it has a
    strictly earlier EOL key and none after it a later one, so it is the
    first entry with the latest key (a non-string [eol] has the key
    [datetime.max]). *)
Theorem max_by_eol_first_maximum (l : list json) (best : json)
  (H : max_by_eol l = Ret best) :
  exists pre post kb,
    l = (pre ++ best :: post)%list /\ eol_key best = Ret kb /\
    Forall (fun v => exists k, eol_key v = Ret k /\ dt_lt k kb = true) pre /\
    Forall (fun v => exists k, eol_key v = Ret k /\ dt_lt kb k = false) post.
Proof.
  destruct l as [|v rest]; [discriminate|]. simpl in H.
  destruct (eol_key v) as [k|e] eqn:Hk; cbn [bind] in H; [|discriminate].
  assert (Hle : forall l' kb,
             Forall (fun w => exists k', eol_key w = Ret k' /\ dt_rank k' <= dt_rank kb) l' ->
             Forall (fun w => exists k', eol_key w = Ret k' /\ dt_lt kb k' = false) l').
  { intros l' kb. apply Forall_impl. intros w (k' & Hw & Hr).
    exists k'. split; [exact Hw|]. unfold dt_lt. apply Z.ltb_ge. lia. }
  assert (Hlt : forall l' kb,
             Forall (fun w => exists k', eol_key w = Ret k' /\ dt_rank k' < dt_rank kb) l' ->
             Forall (fun w => exists k', eol_key w = Ret k' /\ dt_lt k' kb = true) l').
  { intros l' kb. apply Forall_impl. intros w (k' & Hw & Hr).
    exists k'. split; [exact Hw|]. unfold dt_lt. apply Z.ltb_lt. lia. }
  destruct (max_key_from_char rest v k best H)
    as [[-> Hall] | (pre & post & rk & -> & Hr & Hlt' & Hpre & Hpost)].
  - exists [], rest, k. split; [reflexivity|]. split; [exact Hk|].
    split; [constructor | now apply Hle].
  - exists (v :: pre), post, rk. split; [reflexivity|]. split; [exact Hr|].
    split; [|now apply Hle].
    constructor; [|now apply Hlt].
    exists k. split; [exact Hk|]. unfold dt_lt. apply Z.ltb_lt. exact Hlt'.
Qed.

Lemma max_by_eol_first_maximum_witness :
  exists pre post kb,
    release_table_tie = (pre ++ JObj [("cycle", JStr "4"); ("eol", JStr "2026-04-30")] :: post)%list /\
    eol_key (JObj [("cycle", JStr "4"); ("eol", JStr "2026-04-30")]) = Ret kb /\
    Forall (fun v => exists k, eol_key v = Ret k /\ dt_lt k kb = true) pre /\
    Forall (fun v => exists k, eol_key v = Ret k /\ dt_lt kb k = false) post.
Proof. apply max_by_eol_first_maximum. vm_compute. reflexivity. Defined.

Lemma max_key_from_ok : forall l best bk,
  (exists res, max_key_from best bk l = Ret res) <->
  Forall (fun v => exists k, eol_key v = Ret k) l.
Proof.
  induction l as [|v l IH]; intros best bk; simpl.
  - split; [constructor | intros _; eexists; reflexivity].
  - destruct (eol_key v) as [k|e] eqn:Hk; cbn [bind].
    + destruct (dt_lt bk k); rewrite IH;
        (split; [intros Hall; constructor; [exists k; exact Hk | exact Hall]
                | intros Hall; inversion Hall; assumption]).
    + split; [intros [res Hr]; discriminate|].
      intros Hall. inversion Hall as [|? ? [k Hk'] _]. congruence.
Qed.

(** [max] over the table succeeds exactly when the table is non-empty and
    the key of every entry can be computed: one entry without ["eol"], not
    a dict, or with an [eol] string that is not a date makes it raise. *)
Theorem max_by_eol_succeeds_iff (l : list json) :
  (exists best, max_by_eol l = Ret best) <->
  l <> [] /\ Forall (fun v => exists k, eol_key v = Ret k) l.
Proof.
  destruct l as [|v rest]; simpl.
  - split; [intros [b H]; discriminate | intros [H _]; contradiction].
  - destruct (eol_key v) as [k|e] eqn:Hk; cbn [bind].
    + rewrite max_key_from_ok. split.
      * intros Hall. split; [discriminate|]. constructor; [exists k; exact Hk | exact Hall].
      * intros [_ Hall]. inversion Hall; assumption.
    + split; [intros [b H]; discriminate|].
      intros [_ Hall]. inversion Hall as [|? ? [k Hk'] _]. congruence.
Qed.

Lemma find_cycle_some (major_version : string) : forall table vd,
  find_cycle major_version table = Ret (Some vd) ->
  In vd table /\ py_subscript vd "cycle" = Ret (JStr major_version).
Proof.
  induction table as [|item rest IH]; intros vd H; simpl in H; [discriminate|].
  destruct (py_subscript item "cycle") as [c|e] eqn:Hc; cbn [bind] in H; [|discriminate].
  destruct c as [| | |s| |];
    try (destruct (IH vd H) as [Hin Hs]; split; [now right | exact Hs]).
  destruct (String.eqb_spec s major_version) as [->|].
  - injection H as <-. split; [now left | exact Hc].
  - destruct (IH vd H) as [Hin Hs]. split; [now right | exact Hs].
Qed.

Lemma max_by_eol_upper (l : list json) (best : json) :
  max_by_eol l = Ret best ->
  exists kb, In best l /\ eol_key best = Ret kb /\
    forall v k, In v l -> eol_key v = Ret k -> dt_lt kb k = false.
Proof.
  intros H. destruct (max_by_eol_first_maximum l best H)
    as (pre & post & kb & -> & Hb & Hpre & Hpost).
  exists kb. split; [apply in_or_app; right; now left|]. split; [exact Hb|].
  intros v k Hin Hv. apply in_app_or in Hin as [Hin | [<- | Hin]].
  - rewrite Forall_forall in Hpre. destruct (Hpre v Hin) as (k' & Hv' & Hlt).
    rewrite Hv in Hv'. injection Hv' as <-. unfold dt_lt in *.
    apply Z.ltb_lt in Hlt. apply Z.ltb_ge. lia.
  - rewrite Hb in Hv. injection Hv as <-. unfold dt_lt. apply Z.ltb_ge. lia.
  - rewrite Forall_forall in Hpost. destruct (Hpost v Hin) as (k' & Hv' & Hge).
    rewrite Hv in Hv'. injection Hv' as <-. exact Hge.
Qed.

Lemma check_framework_recommendation (fetch : json -> json) (now : datetime) (c r : json) :
  check_framework fetch now c = Ret (Some r) -> recommendation_for fetch now c r.
Proof.
  intros H. unfold check_framework in H.
  destruct (py_subscript c "name") as [name|e] eqn:Hn; cbn [bind] in H; [|discriminate].
  destruct (py_subscript c "version") as [version|e] eqn:Hv; cbn [bind] in H; [|discriminate].
  destruct version as [| | |v| |]; try discriminate.
  destruct (py_truthy (fetch name)) eqn:Ht; [|discriminate].
  destruct (fetch name) as [| | | |table|] eqn:Hf; try discriminate.
  cbn [find_cycle_in] in H.
  destruct (find_cycle (split_dot_head v) table) as [[vd|]|e] eqn:Hfc;
    cbn [bind] in H; try discriminate.
  destruct (py_truthy vd); [|discriminate].
  destruct vd as [| | | | |fvd]; try discriminate.
  destruct (py_get "eol" fvd) as [e|] eqn:He; [|discriminate].
  destruct e as [| | |es| |]; try discriminate.
  destruct (strptime_ymd es) as [d|] eqn:Hs; [|discriminate].
  destruct (dt_lt d now) eqn:Hlt; [|discriminate].
  destruct (max_by_eol table) as [latest|e] eqn:Hm; cbn [bind] in H; [|discriminate].
  destruct (py_subscript latest "cycle") as [cyc|e] eqn:Hc; cbn [bind] in H; [|discriminate].
  destruct (py_subscript latest "eol") as [seol|e] eqn:Hse; cbn [bind] in H; [|discriminate].
  injection H as <-.
  destruct (max_by_eol_upper table latest Hm) as (kb & Hin & Hkb & Hup).
  destruct (find_cycle_some _ _ _ Hfc) as [Hvd _].
  assert (Hkd : eol_key (JObj fvd) = Ret d).
  { unfold eol_key, py_subscript. rewrite He. cbn [bind]. now rewrite Hs. }
  exists name, v, table, (JObj fvd), es, d, latest, cyc, seol.
  do 11 (split; [first [assumption | reflexivity | (simpl; now rewrite He)] |]).
  intros s' ->. exists kb. split.
  - unfold eol_key in Hkb. rewrite Hse in Hkb. cbn [bind] in Hkb.
    destruct (strptime_ymd s'); [now injection Hkb as ->|discriminate].
  - exact (Hup (JObj fvd) d Hvd Hkd).
Qed.

(** Every recommendation [check_eol_dates] returns belongs to one of the
    components: it carries that component's name and version and the
    [eol] of its matched cycle, a date before [now], and suggests the
    [cycle] and [eol] of an entry of the same table whose EOL, when a date
    string, is not earlier than the current one.  There are at most as many
    recommendations as components. *)
Theorem check_eol_dates_recommendations (fetch : json -> json) (now : datetime)
  (l u : list json)
  (H : check_eol_dates fetch now (Some l) = Ret (Some u)) :
  (length u <= length l)%nat /\
  Forall (fun r => exists c, In c l /\ recommendation_for fetch now c r) u.
Proof.
  assert (Hall : forall l' u', check_all fetch now l' = Ret u' ->
            (length u' <= length l')%nat /\
            Forall (fun r => exists c, In c l' /\ recommendation_for fetch now c r) u').
  { induction l' as [|c l' IH]; intros u' H'; simpl in H'.
    - injection H' as <-. split; [simpl; lia | constructor].
    - destruct (check_framework fetch now c) as [o|e] eqn:Hc; cbn [bind] in H'; [|discriminate].
      destruct (check_all fetch now l') as [u1|e] eqn:Hr; cbn [bind] in H'; [|discriminate].
      injection H' as <-. destruct (IH u1 eq_refl) as [Hlen Hf].
      destruct o as [r|].
      + split; [simpl; lia|]. constructor.
        * exists c. split; [now left | now apply check_framework_recommendation].
        * eapply Forall_impl; [|exact Hf].
          intros r' (c' & Hin & Hrec). exists c'. split; [now right | exact Hrec].
      + split; [simpl; lia|]. eapply Forall_impl; [|exact Hf].
        intros r' (c' & Hin & Hrec). exists c'. split; [now right | exact Hrec]. }
  destruct l as [|c l]; [discriminate|].
  unfold check_eol_dates in H.
  destruct (check_all fetch now (c :: l)) as [u'|e] eqn:Hc; cbn [bind] in H; [|discriminate].
  injection H as <-. now apply Hall.
Qed.

Lemma check_eol_dates_recommendations_witness :
  (1 <= 1)%nat /\
  Forall (fun r => exists c, In c [component "django" "1.0.0"] /\
             recommendation_for (fun _ => release_table_c2) (mkdt 2026 10 18 0) c r)
    [JObj [("name", JStr "django"); ("current_version", JStr "1.0.0");
           ("eol_date", JStr "2023-12-31"); ("suggested_version", JStr "2");
           ("suggested_eol_date", JStr "2025-12-31")]].
Proof.
  apply (check_eol_dates_recommendations (fun _ => release_table_c2) (mkdt 2026 10 18 0)
           [component "django" "1.0.0"]
           [JObj [("name", JStr "django"); ("current_version", JStr "1.0.0");
                  ("eol_date", JStr "2023-12-31"); ("suggested_version", JStr "2");
                  ("suggested_eol_date", JStr "2025-12-31")]]).
  vm_compute. reflexivity.
Defined.

(** A component whose feed answer is falsy (no data, [[]], [{}]), or whose
    table has no entry with a [cycle] equal to its major version, yields no
    recommendation and no error. *)
Theorem check_framework_no_data_no_match (fetch : json -> json) (now : datetime)
  (c name : json) (v : string)
  (Hn : py_subscript c "name" = Ret name)
  (Hv : py_subscript c "version" = Ret (JStr v))
  (Hno : py_truthy (fetch name) = false \/
         exists table, fetch name = JArr table /\
           Forall (fun item => exists cyc, py_subscript item "cycle" = Ret cyc /\
                                  cyc <> JStr (split_dot_head v)) table) :
  check_framework fetch now c = Ret None.
Proof.
  unfold check_framework. rewrite Hn. cbn [bind]. rewrite Hv. cbn [bind].
  destruct Hno as [Hf | (table & Hf & Hall)]; [now rewrite Hf|].
  rewrite Hf. destruct (py_truthy (JArr table)); [|reflexivity].
  cbn [find_cycle_in].
  assert (Hnone : find_cycle (split_dot_head v) table = Ret None).
  { clear Hf. induction Hall as [|item rest (cyc & Hc & Hne) _ IH]; [reflexivity|].
    simpl. rewrite Hc. cbn [bind].
    destruct cyc as [| | |s| |]; try exact IH.
    destruct (String.eqb_spec s (split_dot_head v)) as [->|]; [contradiction | exact IH]. }
  rewrite Hnone. reflexivity.
Qed.

Lemma check_framework_no_data_no_match_witness :
  check_framework (fun _ => release_table_c2) (mkdt 2026 10 18 0)
    (component "django" "5.1.2") = Ret None.
Proof.
  apply (check_framework_no_data_no_match _ _ _ (JStr "django") "5.1.2");
    [reflexivity | reflexivity |].
  right. exists [JObj [("cycle", JStr "1"); ("eol", JStr "2023-12-31")];
                 JObj [("cycle", JStr "2"); ("eol", JStr "2025-12-31")]].
  split; [reflexivity|].
  repeat constructor; eexists; (split; [reflexivity | discriminate]).
Defined.

(** ** Properties of load_and_check_sbom and main *)

(** [load_and_check_sbom] never raises.  It returns [Some l] exactly when
    the file at [SBOM_PATH] (or the default path) is read, decodes to a
    JSON object whose [components] is a non-empty list [l], and the EOL
    check of [l] completes; it then returns the components [l], not the
    upgrades.  In every other case it returns [None]. *)
Theorem load_and_check_sbom_result (env_sbom_path : option string) (default_path : string)
  (fs : string -> file_outcome) (loads : string -> option json)
  (net : json -> http_outcome) (now : datetime) :
  (exists r, load_and_check_sbom env_sbom_path default_path fs loads net now = Ret r) /\
  (forall l,
     load_and_check_sbom env_sbom_path default_path fs loads net now = Ret (Some l) <->
     exists sbom fields u,
       fs (sbom_path env_sbom_path default_path) = FileContent sbom /\
       loads sbom = Some (JObj fields) /\
       py_get "components" fields = Some (JArr l) /\ l <> [] /\
       check_eol_dates_net net now (Some l) = Ret (Some u)).
Proof.
  unfold load_and_check_sbom.
  split.
  - destruct (fs _); try (eexists; reflexivity).
    unfold catch_all. destruct (bind _ _); eexists; reflexivity.
  - intros l. destruct (fs (sbom_path env_sbom_path default_path)) as [| |sbom] eqn:Hfs.
    + split; [intros H; discriminate H | intros (? & ? & ? & H & _); discriminate H].
    + split; [intros H; discriminate H | intros (? & ? & ? & H & _); discriminate H].
    + split.
      * intros H. unfold catch_all in H.
        destruct (loads sbom) as [[| | | | |fields]|] eqn:Hl;
          cbn [parse_sbom bind] in H; try discriminate.
        destruct (py_get "components" fields) as [[| | | |cs|]|] eqn:Hc;
          cbn [bind] in H; try discriminate.
        destruct cs as [|c cs]; cbn [bind] in H; [discriminate|].
        unfold check_eol_dates_net in H.
        destruct (check_all_net net now (c :: cs)) as [u|e] eqn:Hchk;
          cbn [bind] in H; [|discriminate].
        injection H as <-. exists sbom, fields, u.
        split; [reflexivity|]. split; [exact Hl|]. split; [exact Hc|].
        split; [intros Habs; discriminate Habs|].
        unfold check_eol_dates_net. now rewrite Hchk.
      * intros (sbom' & fields & u & Hfs' & Hl & Hc & Hne & Hchk).
        injection Hfs' as <-. rewrite Hl. cbn [parse_sbom]. rewrite Hc.
        destruct l as [|c cs]; [contradiction|]. cbn [bind]. rewrite Hchk.
        reflexivity.
Qed.


Lemma load_and_check_sbom_result_witness :
  load_and_check_sbom None "sbom.json"
    (fun p => if String.eqb p "sbom.json" then FileContent "sbom" else FileNotFound)
    (fun _ => Some (JObj [("components", JArr [component "django" "1.0.0"])]))
    (fun _ => HttpResponse 200 true (Some release_table_c2)) (mkdt 2026 10 18 0)
  = Ret (Some [component "django" "1.0.0"]).
Proof.
  apply (proj2 (load_and_check_sbom_result None "sbom.json"
    (fun p => if String.eqb p "sbom.json" then FileContent "sbom" else FileNotFound)
    (fun _ => Some (JObj [("components", JArr [component "django" "1.0.0"])]))
    (fun _ => HttpResponse 200 true (Some release_table_c2)) (mkdt 2026 10 18 0))
    [component "django" "1.0.0"]).
  exists "sbom", [("components", JArr [component "django" "1.0.0"])].
  eexists. split; [reflexivity|]. split; [reflexivity|]. split; [reflexivity|].
  split; [discriminate | vm_compute; reflexivity].
Defined.


(** ** Dates accepted by strptime *)

Lemma digit_range (c : ascii) (n : Z) : digit c = Some n -> 0 <= n <= 9.
Proof.
  unfold digit. intros H.
  destruct ((48 <=? Z.of_nat (nat_of_ascii c)) && (Z.of_nat (nat_of_ascii c) <=? 57)) eqn:E;
    [|discriminate].
  apply andb_true_iff in E as [E1 E2]. apply Z.leb_le in E1, E2.
  injection H as <-. lia.
Qed.

Lemma is_digit_in_range (lo hi : Z) (c : ascii) (n : Z) :
  is_digit_in lo hi c = Some n -> lo <= n <= hi.
Proof.
  unfold is_digit_in. destruct (digit c) as [d|]; [|discriminate].
  destruct ((lo <=? d) && (d <=? hi)) eqn:E; [|discriminate].
  apply andb_true_iff in E as [E1 E2]. apply Z.leb_le in E1, E2.
  intros H. injection H as <-. lia.
Qed.

Ltac split_digits :=
  repeat match goal with
  | |- context [is_digit_in ?lo ?hi ?c] =>
      let E := fresh "E" in
      destruct (is_digit_in lo hi c) eqn:E; [apply is_digit_in_range in E|]
  | |- context [digit ?c] =>
      let E := fresh "E" in
      destruct (digit c) eqn:E; [apply digit_range in E|]
  | |- context [Ascii.eqb ?a ?b] => destruct (Ascii.eqb a b)
  end.

Ltac solve_in_range :=
  let Hin := fresh "Hin" in
  intros Hin; cbn [In app] in Hin;
  repeat match goal with
  | H : _ \/ _ |- _ => destruct H
  | H : (_, _) = (_, _) |- _ => apply pair_equal_spec in H as [<- _]
  | H : False |- _ => contradiction
  end; lia.

Lemma match_month_range (s : list ascii) (m : Z) (r : list ascii) :
  In (m, r) (match_month s) -> 1 <= m <= 12.
Proof.
  destruct s as [|c1 [|c2 s]]; unfold match_month; cbv beta iota zeta;
    split_digits; solve_in_range.
Qed.

Lemma match_day_range (s : list ascii) (d : Z) (r : list ascii) :
  In (d, r) (match_day s) -> 1 <= d <= 31.
Proof.
  destruct s as [|c1 [|c2 s]]; unfold match_day; cbv beta iota zeta;
    split_digits; solve_in_range.
Qed.

Lemma first_some_in {A B} (f : A -> option B) (l : list A) (y : B) :
  first_some f l = Some y -> exists x, In x l /\ f x = Some y.
Proof.
  induction l as [|x l IH]; simpl; [discriminate|].
  destruct (f x) eqn:Hf.
  - intros H. injection H as <-. exists x. split; [now left | exact Hf].
  - intros H. destruct (IH H) as (x' & Hin & Hx). exists x'. split; [now right | exact Hx].
Qed.

(** Every date [datetime.strptime(_, "%Y-%m-%d")] accepts is a calendar
    date at midnight: a year from 1 to 9999, a month from 1 to 12 and a day
    within that month. *)
Theorem strptime_ymd_valid (s : string) (t : datetime)
  (H : strptime_ymd s = Some t) :
  1 <= dt_year t <= 9999 /\ 1 <= dt_month t <= 12 /\
  1 <= dt_day t <= days_in_month (dt_year t) (dt_month t) /\ dt_us t = 0.
Proof.
  unfold strptime_ymd in H.
  destruct (match_ymd (list_ascii_of_string s)) as [[[[y m] d] rest]|] eqn:Hm;
    [|discriminate].
  destruct rest; [|discriminate].
  destruct ((1 <=? y) && (d <=? days_in_month y m)) eqn:E; [|discriminate].
  injection H as <-. apply andb_true_iff in E as [E1 E2].
  apply Z.leb_le in E1, E2. simpl.
  unfold match_ymd in Hm.
  destruct (list_ascii_of_string s) as [|y1 [|y2 [|y3 [|y4 [|dash r]]]]];
    try discriminate.
  destruct (digit y1) as [a|] eqn:Ea; [|discriminate].
  destruct (digit y2) as [b|] eqn:Eb; [|discriminate].
  destruct (digit y3) as [c|] eqn:Ec; [|discriminate].
  destruct (digit y4) as [e|] eqn:Ee; [|discriminate].
  apply digit_range in Ea, Eb, Ec, Ee.
  remember (1000 * a + 100 * b + 10 * c + e) as year eqn:Hyear.
  destruct (Ascii.eqb dash "-"%char); [|discriminate].
  apply first_some_in in Hm as ([m' r1] & Hin & Hf).
  destruct r1 as [|dash2 r2]; [discriminate|].
  destruct (Ascii.eqb dash2 "-"%char); [|discriminate].
  destruct (match_day r2) as [|[dd r3] ds] eqn:Hd; [discriminate|].
  injection Hf as Hy Hmm Hdd' _. subst y m d.
  apply match_month_range in Hin.
  assert (Hdd : 1 <= dd <= 31) by (apply (match_day_range r2 dd r3); rewrite Hd; now left).
  repeat split; lia.
Qed.

Lemma strptime_ymd_valid_witness :
  1 <= 2024 <= 9999 /\ 1 <= 2 <= 12 /\ 1 <= 29 <= days_in_month 2024 2 /\ 0 = 0.
Proof. exact (strptime_ymd_valid "2024-02-29" (mkdt 2024 2 29 0) eq_refl). Defined.
